(** * SSL certificate expiry checker (ssl-cert-checker/checker.py)

    A shallow embedding of [days_until], [check_site] and the result
    collection and exit-code computation of [main].

    Time is an integer count of microseconds since the epoch (the
    resolution of Python's [datetime]); the difference of two aware UTC
    datetimes is a [timedelta] whose [.days] is the floor of the
    difference divided by the number of microseconds in a day.

    Exceptions and printing are modelled by a small monad: a computation
    takes the output trace produced so far and returns either an
    exception (carrying its message) or a value, together with the
    extended trace.  The outside world (clock, TLS peer, webhook) is a
    record [world]. *)

From Stdlib Require Import ZArith List String Bool Permutation Lia.
Import ListNotations.
Open Scope Z_scope.

(** ** Data *)

Inductive status : Type := OK | WARNING | ERROR | EXPIRED.

Definition status_eqb (a b : status) : bool :=
  match a, b with
  | OK, OK | WARNING, WARNING | ERROR, ERROR | EXPIRED, EXPIRED => true
  | _, _ => false
  end.

(** A site entry of the YAML configuration: [host], optional [port],
    optional [name]. *)
Record entry : Type := mk_entry {
  host : string;
  port : option Z;
  name : option string
}.

(** The [thresholds] dictionary: optional [warning_days], [error_days]. *)
Record thresholds : Type := mk_thresholds {
  warning_days : option Z;
  error_days : option Z
}.

(** [d.get(key, default)] *)
Definition dict_get {A : Type} (v : option A) (default : A) : A :=
  match v with Some x => x | None => default end.

(** The lines the program prints, kept structured instead of formatted. *)
Inductive line : Type :=
| ExpiresLine (label host : string) (port : Z) (exp : Z) (days : Z) (st : status)
    (* "{label} ({host}:{port}) -> Expires: {exp} UTC ({days} days) [{status}]" *)
| SlackFailLine (cause : string)
    (* "Failed to send Slack alert: {e}" *)
| RetrieveErrLine (label host : string) (port : Z) (cause : string).
    (* "{label} ({host}:{port}) -> ERROR retrieving certificate: {e}" *)

Inductive event : Type :=
| Stdout (l : line)
| Stderr (l : line)
| SlackPost (url : string) (text : line).

(** The outside world: the clock, the outcome of fetching a certificate
    from [host:port] (an error message, or the expiry instant), and the
    outcome of a webhook POST ([None] on success, [Some cause] when
    [urlopen] raises). *)
Record world : Type := mk_world {
  now : Z;
  fetch : string -> Z -> string + Z;
  slack : string -> line -> option string
}.

(** [check_site] returns [(label, status, days)]. *)
Definition result : Type := (string * status * Z)%type.

Definition res_status (r : result) : status :=
  match r with (_, s, _) => s end.

(** ** The exception/output monad *)

Definition M (A : Type) : Type := list event -> (string + A) * list event.

Definition ret {A : Type} (a : A) : M A := fun tr => (inr a, tr).

Definition bind {A B : Type} (m : M A) (k : A -> M B) : M B :=
  fun tr => match m tr with
            | (inl e, tr') => (inl e, tr')
            | (inr a, tr') => k a tr'
            end.

Definition raise {A : Type} (e : string) : M A := fun tr => (inl e, tr).

Definition emit (ev : event) : M unit := fun tr => (inr tt, tr ++ [ev]).

(** [try: m except Exception as e: h(e)] *)
Definition try_except {A : Type} (m : M A) (h : string -> M A) : M A :=
  fun tr => match m tr with
            | (inl e, tr') => h e tr'
            | r => r
            end.

Notation "x <- m ;; k" := (bind m (fun x => k))
  (at level 61, m at next level, right associativity).
Notation "m ;; k" := (bind m (fun _ : unit => k))
  (at level 61, right associativity).

(** ** The program *)

Definition day_us : Z := 86400 * 1000000.

Definition get_certificate_notAfter (w : world) (hostname : string) (port : Z) : M Z :=
  match fetch w hostname port with
  | inl e => raise e
  | inr exp => ret exp
  end.

(** [delta = dt - now; return delta.days] *)
Definition days_until (w : world) (dt : Z) : Z :=
  let delta := dt - now w in
  Z.div delta day_us.

Definition send_slack (w : world) (webhook_url : string) (payload : line) : M unit :=
  emit (SlackPost webhook_url payload);;
  match slack w webhook_url payload with
  | None => ret tt
  | Some e => raise e
  end.

Definition print (l : line) : M unit := emit (Stdout l).
Definition eprint (l : line) : M unit := emit (Stderr l).

(** Truthiness of [slack_webhook : str | None]. *)
Definition truthy (s : string) : bool :=
  negb (String.eqb s EmptyString).

(** Lines 63-69 of [check_site]. *)
Definition classify (days : Z) (thr : thresholds) : status :=
  if days <? 0 then EXPIRED
  else if days <=? dict_get (error_days thr) 7 then ERROR
  else if days <=? dict_get (warning_days thr) 30 then WARNING
  else OK.

(** [status in ('WARNING', 'ERROR', 'EXPIRED')] *)
Definition is_alert (s : status) : bool :=
  match s with WARNING | ERROR | EXPIRED => true | OK => false end.

Definition check_site (w : world) (e : entry) (thr : thresholds)
    (slack_webhook : option string) : M result :=
  let h := host e in
  let p := dict_get (port e) 443 in
  let label := dict_get (name e) h in
  try_except
    (exp <- get_certificate_notAfter w h p;;
     let days := days_until w exp in
     let st := classify days thr in
     let message := ExpiresLine label h p exp days st in
     print message;;
     (match slack_webhook with
      | Some url =>
          if truthy url && is_alert st then
            try_except (send_slack w url message)
                       (fun err => eprint (SlackFailLine err))
          else ret tt
      | None => ret tt
      end);;
     ret (label, st, days))
    (fun err =>
     let err_msg := RetrieveErrLine label h p err in
     eprint err_msg;;
     (match slack_webhook with
      | Some url =>
          if truthy url then
            try_except (send_slack w url err_msg) (fun _ => ret tt)
          else ret tt
      | None => ret tt
      end);;
     ret (label, ERROR, -9999)).

(** *** [main]: the exit code (lines 119-127) *)

(** [codes = {r[1] for r in results}]; set membership is list membership. *)
Definition codes (results : list result) : list status := map res_status results.

Definition mem (s : status) (cs : list status) : bool :=
  existsb (status_eqb s) cs.

Definition exit_code (results : list result) : Z :=
  let cs := codes results in
  if mem ERROR cs || mem EXPIRED cs then 2
  else if mem WARNING cs then 1
  else 0.

(** [slack_webhook = os.environ.get('SLACK_WEBHOOK_URL')], cleared by
    [--no-slack]. *)
Definition effective_webhook (env : option string) (no_slack : bool) : option string :=
  if no_slack then None else env.

(** *** [main]: the thread pool (lines 111-117)

    One task per site is submitted to a pool of [MAX_WORKERS] threads.  A
    pool state holds the tasks still queued, those running on a worker,
    and those completed, in completion order.  A worker takes the head of
    the queue when fewer than [K] tasks run; any running task may
    complete next. *)

Definition MAX_WORKERS : nat := 10.

Record pool : Type := mk_pool {
  pending : list entry;
  running : list entry;
  completed : list entry
}.

Inductive pool_step (K : nat) : pool -> pool -> Prop :=
| ps_start : forall t pend rn dn,
    (List.length rn < K)%nat ->
    pool_step K (mk_pool (t :: pend) rn dn) (mk_pool pend (t :: rn) dn)
| ps_finish : forall t pend r1 r2 dn,
    pool_step K (mk_pool pend (r1 ++ t :: r2) dn)
                (mk_pool pend (r1 ++ r2) (dn ++ [t])).

Inductive pool_steps (K : nat) : pool -> pool -> Prop :=
| pss_refl : forall p, pool_steps K p p
| pss_step : forall p q r, pool_step K p q -> pool_steps K q r -> pool_steps K p r.

Definition pool_init (sites : list entry) : pool := mk_pool sites [] [].

(** The [with ThreadPoolExecutor(...)] block has exited. *)
Definition pool_done (p : pool) : Prop := pending p = [] /\ running p = [].

(** [for future in as_completed(...): results.append(future.result())]:
    [future.result()] re-raises the task's exception. *)
Fixpoint collect (w : world) (thr : thresholds) (slack_webhook : option string)
    (order : list entry) (results : list result) : string + list result :=
  match order with
  | [] => inr results
  | e :: rest =>
      match fst (check_site w e thr slack_webhook []) with
      | inl err => inl err
      | inr r => collect w thr slack_webhook rest (results ++ [r])
      end
  end.

(** The exit code [main] passes to [sys.exit] once the sites have run and
    completed in the given order ([inl] when [main] itself raises). *)
Definition main_exit (w : world) (thr : thresholds) (slack_webhook : option string)
    (order : list entry) : string + Z :=
  match collect w thr slack_webhook order [] with
  | inl err => inl err
  | inr results => inr (exit_code results)
  end.

(** ** Helper lemmas *)

(** The value [check_site] computes, read off the source without effects. *)
Definition site_result (w : world) (e : entry) (thr : thresholds) : result :=
  let h := host e in
  let p := dict_get (port e) 443 in
  let label := dict_get (name e) h in
  match fetch w h p with
  | inl _ => (label, ERROR, -9999)
  | inr exp => let days := days_until w exp in (label, classify days thr, days)
  end.

Lemma check_site_value : forall w e thr wh tr,
  fst (check_site w e thr wh tr) = inr (site_result w e thr).
Proof.
  intros w e thr wh tr.
  unfold check_site, site_result, get_certificate_notAfter, try_except, bind, ret,
    raise, print, eprint, emit, send_slack.
  destruct (fetch w (host e) (dict_get (port e) 443)) as [err|exp]; simpl.
  - destruct wh as [url|]; [destruct (truthy url)|]; simpl; try reflexivity.
    destruct (slack w url _); reflexivity.
  - destruct wh as [url|]; [destruct (truthy url && is_alert _)|]; simpl; try reflexivity.
    destruct (slack w url _); reflexivity.
Qed.

Lemma collect_value : forall w thr wh order acc,
  collect w thr wh order acc = inr (acc ++ map (fun e => site_result w e thr) order).
Proof.
  intros w thr wh order; induction order as [|e rest IH]; intros acc; simpl.
  - rewrite app_nil_r; reflexivity.
  - rewrite check_site_value, IH, <- app_assoc; reflexivity.
Qed.

Lemma pool_step_perm : forall K p q,
  pool_step K p q ->
  Permutation (pending q ++ running q ++ completed q)
              (pending p ++ running p ++ completed p).
Proof.
  intros K p q Hs; destruct Hs as [t pend rn dn _ | t pend r1 r2 dn]; simpl.
  - apply Permutation_sym, Permutation_middle.
  - apply Permutation_app_head.
    rewrite <- !app_assoc.
    apply Permutation_app_head.
    simpl. rewrite app_assoc.
    apply Permutation_sym, Permutation_cons_append.
Qed.

Lemma pool_steps_perm : forall K p q,
  pool_steps K p q ->
  Permutation (pending q ++ running q ++ completed q)
              (pending p ++ running p ++ completed p).
Proof.
  intros K p q Hs; induction Hs as [p | p q r Hs _ IH].
  - reflexivity.
  - rewrite IH. apply pool_step_perm with (K := K); exact Hs.
Qed.

Lemma pool_drain : forall K pend dn,
  (1 <= K)%nat ->
  pool_steps K (mk_pool pend [] dn) (mk_pool [] [] (dn ++ pend)).
Proof.
  intros K pend; induction pend as [|t pend IH]; intros dn HK.
  - rewrite app_nil_r; constructor.
  - eapply pss_step.
    + apply ps_start; simpl; lia.
    + eapply pss_step.
      * apply (ps_finish K t pend [] [] dn).
      * simpl. replace (dn ++ t :: pend) with ((dn ++ [t]) ++ pend)
          by (rewrite <- app_assoc; reflexivity).
        apply IH; exact HK.
Qed.

Lemma classify_neg : forall d thr, d < 0 -> classify d thr = EXPIRED.
Proof.
  intros d thr Hd; unfold classify.
  destruct (Z.ltb_spec d 0); [reflexivity | lia].
Qed.

(** ** Concrete runs *)

Definition host_a : entry := mk_entry "example.org" None None.

Definition thr_default : thresholds := mk_thresholds None None.

(** A world at 2026-10-16T00:00:00Z whose certificate expires [k]
    microseconds from now, and whose webhook accepts every POST. *)
Definition world_at (k : Z) : world :=
  mk_world (20742 * day_us) (fun _ _ => inr (20742 * day_us + k)) (fun _ _ => None).

Example days_5 : site_result (world_at (5 * day_us)) host_a thr_default
  = ("example.org"%string, ERROR, 5).
Proof. reflexivity. Qed.

Example days_45 : site_result (world_at (45 * day_us + 7)) host_a thr_default
  = ("example.org"%string, OK, 45).
Proof. reflexivity. Qed.

Example days_minus_1us : site_result (world_at (-1)) host_a thr_default
  = ("example.org"%string, EXPIRED, -1).
Proof. reflexivity. Qed.

Example exit_examples :
  exit_code [("a", OK, 40); ("b", OK, 50)]%string = 0 /\
  exit_code [("a", OK, 40); ("b", WARNING, 20)]%string = 1 /\
  exit_code [("a", OK, 40); ("b", WARNING, 20); ("c", ERROR, 3)]%string = 2.
Proof. repeat split; reflexivity. Qed.

(** ** Claims *)

(** C1 (as stated, refuted): with [error_days = -1 <= warning_days = 30]
    and a certificate that expired one microsecond ago, [days_remaining]
    equals [error_days] but the status is EXPIRED, not ERROR: the
    boundary values of the claim assume a non-negative [error_days]. *)
Lemma C1_boundary_counterexample :
  let thr := mk_thresholds (Some 30) (Some (-1)) in
  dict_get (error_days thr) 7 <= dict_get (warning_days thr) 30 /\
  fst (check_site (world_at (-1)) host_a thr None [])
    = inr ("example.org"%string, EXPIRED, -1) /\
  EXPIRED <> ERROR.
Proof.
  intros thr; split; [|split].
  - vm_compute; discriminate.
  - reflexivity.
  - discriminate.
Qed.

(** C1 (amended): after a successful retrieval, [check_site] returns the
    status chosen by first match in the order [days < 0] (EXPIRED),
    [days <= error_days] (ERROR, default 7), [days <= warning_days]
    (WARNING, default 30), otherwise OK.  For thresholds with
    [0 <= e <= w]: [days = e] gives ERROR, [days = e + 1 <= w] gives
    WARNING, [days = w + 1] gives OK; [days = -1] gives EXPIRED for all
    thresholds. *)
Theorem check_site_classification : forall w e thr wh tr exp,
  fetch w (host e) (dict_get (port e) 443) = inr exp ->
  let d := days_until w exp in
  let ed := dict_get (error_days thr) 7 in
  let wd := dict_get (warning_days thr) 30 in
  exists st,
    fst (check_site w e thr wh tr) = inr (dict_get (name e) (host e), st, d) /\
    (d < 0 -> st = EXPIRED) /\
    (0 <= d <= ed -> st = ERROR) /\
    (0 <= d -> ed < d <= wd -> st = WARNING) /\
    (0 <= d -> ed < d -> wd < d -> st = OK) /\
    (d = -1 -> st = EXPIRED) /\
    (0 <= ed <= wd ->
       (d = ed -> st = ERROR) /\
       (d = ed + 1 -> d <= wd -> st = WARNING) /\
       (d = wd + 1 -> st = OK)).
Proof.
  intros w e thr wh tr exp Hf d ed wd.
  exists (classify d thr).
  rewrite check_site_value; unfold site_result; rewrite Hf.
  split; [reflexivity|].
  unfold classify; fold ed wd.
  destruct (Z.ltb_spec d 0); destruct (Z.leb_spec d ed);
    destruct (Z.leb_spec d wd);
    repeat split; intros; try reflexivity; try lia.
Qed.

Lemma check_site_classification_witness :
  fetch (world_at (5 * day_us)) "example.org" 443 = inr (20742 * day_us + 5 * day_us) /\
  exists st,
    fst (check_site (world_at (5 * day_us)) host_a thr_default None [])
      = inr ("example.org"%string, st, 5) /\ st = ERROR.
Proof.
  split; [reflexivity|].
  destruct (check_site_classification (world_at (5 * day_us)) host_a thr_default
              None [] (20742 * day_us + 5 * day_us) eq_refl)
    as [st [Hr [_ [Herr _]]]].
  exists st; split.
  - exact Hr.
  - apply Herr. vm_compute. split; discriminate.
Defined.

(** C2: the exit code is 2 when some result is ERROR or EXPIRED, else 1
    when some result is WARNING, else 0; it depends on the statuses
    only, not on any [days_remaining]. *)
Theorem exit_code_precedence : forall results,
  (exit_code results = 2 <->
     exists r, In r results /\ (res_status r = ERROR \/ res_status r = EXPIRED)) /\
  (exit_code results = 1 <->
     (forall r, In r results -> res_status r <> ERROR /\ res_status r <> EXPIRED) /\
     exists r, In r results /\ res_status r = WARNING) /\
  (exit_code results = 0 <->
     forall r, In r results -> res_status r = OK) /\
  (forall results', map res_status results' = map res_status results ->
     exit_code results' = exit_code results).
Proof.
  intros results.
  assert (Hmem : forall s, mem s (codes results) = true <->
                           exists r, In r results /\ res_status r = s).
  { intros s; unfold mem, codes; rewrite existsb_exists; split.
    - intros [x [Hx Hs]]. apply in_map_iff in Hx as [r [Hr Hin]].
      exists r; split; [exact Hin|]. subst x; destruct s, (res_status r);
        simpl in Hs; congruence.
    - intros [r [Hin Hs]]. exists (res_status r); split.
      + apply in_map; exact Hin.
      + subst s; destruct (res_status r); reflexivity. }
  assert (Hnot : forall s, mem s (codes results) = false <->
                           forall r, In r results -> res_status r <> s).
  { intros s; split.
    - intros Hf r Hin Hs. assert (mem s (codes results) = true) by
        (apply Hmem; exists r; auto). congruence.
    - intros Hall. destruct (mem s (codes results)) eqn:E; [|reflexivity].
      apply Hmem in E as [r [Hin Hs]]. exfalso; exact (Hall r Hin Hs). }
  assert (Hok : (forall r, In r results -> res_status r = OK) <->
                forall r, In r results ->
                  res_status r <> ERROR /\ res_status r <> EXPIRED /\
                  res_status r <> WARNING).
  { split; intros H r Hin; specialize (H r Hin).
    - rewrite H; repeat split; discriminate.
    - destruct (res_status r); tauto. }
  rewrite Hok; unfold exit_code.
  split; [|split; [|split]].
  4: intros results' Heq; unfold codes; rewrite Heq; reflexivity.
  all: destruct (mem ERROR (codes results)) eqn:E1;
    destruct (mem EXPIRED (codes results)) eqn:E2;
    destruct (mem WARNING (codes results)) eqn:E3; simpl.
  all: repeat match goal with
    | E : mem _ _ = true |- _ => apply (proj1 (Hmem _)) in E
    | E : mem _ _ = false |- _ => pose proof (proj1 (Hnot _) E); clear E
    end.
  all: firstorder (try discriminate; try congruence).
Qed.

(** C3: [check_site] never lets an exception out: for every world,
    entry, thresholds and webhook it returns a result.  When the
    certificate retrieval raises, the result is [(label, ERROR, -9999)]
    and the error line is written to stderr.  The result does not depend
    on the output other checks produced before it. *)
Theorem check_site_never_raises : forall w e thr wh tr,
  (exists r, fst (check_site w e thr wh tr) = inr r) /\
  (forall err,
     fetch w (host e) (dict_get (port e) 443) = inl err ->
     let label := dict_get (name e) (host e) in
     fst (check_site w e thr wh tr) = inr (label, ERROR, -9999) /\
     In (Stderr (RetrieveErrLine label (host e) (dict_get (port e) 443) err))
        (snd (check_site w e thr wh tr))) /\
  (forall tr', fst (check_site w e thr wh tr') = fst (check_site w e thr wh tr)).
Proof.
  intros w e thr wh tr.
  split; [|split].
  - exists (site_result w e thr); apply check_site_value.
  - intros err Hf label.
    split.
    + rewrite check_site_value; unfold site_result; rewrite Hf; reflexivity.
    + unfold check_site, get_certificate_notAfter, try_except, bind, ret, raise,
        eprint, emit, send_slack.
      rewrite Hf; simpl.
      assert (Hin : In (Stderr (RetrieveErrLine label (host e) (dict_get (port e) 443) err))
                       (tr ++ [Stderr (RetrieveErrLine label (host e) (dict_get (port e) 443) err)]))
        by (apply in_or_app; right; left; reflexivity).
      destruct wh as [url|]; [destruct (truthy url)|]; simpl; try exact Hin.
      destruct (slack w url _); simpl; apply in_or_app; left; exact Hin.
  - intros tr'; rewrite !check_site_value; reflexivity.
Qed.

(** Severity order: OK < WARNING < ERROR = EXPIRED. *)
Definition severity (s : status) : nat :=
  match s with OK => 0 | WARNING => 1 | ERROR | EXPIRED => 2 end.

(** C4: for [error_days <= warning_days] the classification of lines
    63-69 is total and monotone: fewer remaining days never give a less
    severe status. *)
Theorem classify_total_monotone : forall thr d1 d2,
  dict_get (error_days thr) 7 <= dict_get (warning_days thr) 30 ->
  d1 <= d2 ->
  In (classify d1 thr) [OK; WARNING; ERROR; EXPIRED] /\
  (severity (classify d2 thr) <= severity (classify d1 thr))%nat.
Proof.
  intros thr d1 d2 Hew Hd.
  split; [destruct (classify d1 thr); simpl; tauto|].
  unfold classify.
  destruct (Z.ltb_spec d1 0), (Z.ltb_spec d2 0);
    destruct (Z.leb_spec d1 (dict_get (error_days thr) 7));
    destruct (Z.leb_spec d2 (dict_get (error_days thr) 7));
    destruct (Z.leb_spec d1 (dict_get (warning_days thr) 30));
    destruct (Z.leb_spec d2 (dict_get (warning_days thr) 30));
    simpl; lia.
Qed.

Lemma classify_total_monotone_witness :
  dict_get (error_days thr_default) 7 <= dict_get (warning_days thr_default) 30 /\
  (-1 <= 8) /\
  In (classify (-1) thr_default) [OK; WARNING; ERROR; EXPIRED] /\
  (severity (classify 8 thr_default) <= severity (classify (-1) thr_default))%nat.
Proof.
  split; [vm_compute; discriminate|]. split; [lia|].
  apply classify_total_monotone; [vm_compute; discriminate | lia].
Defined.

(** C5: [days_until] is the floor of the remaining time in days: a
    positive remainder below one day gives 0, a negative one gives a
    negative count. *)
Theorem days_until_floor : forall w exp,
  days_until w exp * day_us <= exp - now w < (days_until w exp + 1) * day_us /\
  (0 < exp - now w < day_us -> days_until w exp = 0) /\
  (exp - now w < 0 -> days_until w exp < 0).
Proof.
  intros w exp; unfold days_until.
  assert (Hd : 0 < day_us) by (unfold day_us; lia).
  split; [|split].
  - pose proof (Z.mul_div_le (exp - now w) day_us Hd).
    pose proof (Z.mod_pos_bound (exp - now w) day_us Hd).
    pose proof (Z.div_mod (exp - now w) day_us ltac:(lia)).
    split; [lia|]. rewrite Z.mul_add_distr_r. lia.
  - intros H. apply Z.div_small; lia.
  - intros H. apply Z.div_lt_upper_bound; lia.
Qed.

Example days_until_09 :
  days_until (world_at (9 * day_us / 10)) (20742 * day_us + 9 * day_us / 10) = 0.
Proof. reflexivity. Qed.

(** C6 (as stated, refuted): a certificate that expired exactly 9999
    days before now (in 1999, seen from 2026-10-16) is retrieved
    successfully and [check_site] returns [days_remaining = -9999], the
    value of the retrieval-failure sentinel. *)
Lemma C6_sentinel_counterexample :
  fetch (world_at (-9999 * day_us)) "example.org" 443 = inr (20742 * day_us - 9999 * day_us) /\
  fst (check_site (world_at (-9999 * day_us)) host_a thr_default None [])
    = inr ("example.org"%string, EXPIRED, -9999).
Proof. split; reflexivity. Qed.

(** C6 (amended): on the success path [days_remaining = -9999] exactly
    when the expiry lies between 9999 and 9998 days before now, and such
    a result is EXPIRED; so the pair (ERROR, -9999) is returned exactly
    when the retrieval failed. *)
Theorem sentinel_pair_only_on_failure : forall w e thr wh tr,
  (fst (check_site w e thr wh tr) = inr (dict_get (name e) (host e), ERROR, -9999) <->
     exists err, fetch w (host e) (dict_get (port e) 443) = inl err) /\
  (forall exp, fetch w (host e) (dict_get (port e) 443) = inr exp ->
     (days_until w exp = -9999 <->
        -9999 * day_us <= exp - now w < -9998 * day_us) /\
     (days_until w exp = -9999 ->
        fst (check_site w e thr wh tr) = inr (dict_get (name e) (host e), EXPIRED, -9999))).
Proof.
  intros w e thr wh tr.
  rewrite check_site_value; unfold site_result.
  split.
  - destruct (fetch w (host e) (dict_get (port e) 443)) as [err|exp].
    + split; [intros _; exists err; reflexivity | intros _; reflexivity].
    + split; [|intros [err Herr]; discriminate].
      intros H; injection H as Hs Hd.
      rewrite Hd in Hs. rewrite classify_neg in Hs by lia. discriminate.
  - intros exp Hf; rewrite Hf.
    destruct (days_until_floor w exp) as [[Hlo Hhi] _].
    split.
    + split.
      * intros Hd; rewrite Hd in Hlo, Hhi; lia.
      * intros [H1 H2].
        assert (Hd : 0 < day_us) by (unfold day_us; lia).
        assert (-9999 <= days_until w exp).
        { destruct (Z.lt_ge_cases (days_until w exp) (-9999)) as [Hlt|]; [|lia].
          exfalso. assert ((days_until w exp + 1) * day_us <= -9999 * day_us)
            by (apply Z.mul_le_mono_pos_r; lia). lia. }
        assert (days_until w exp < -9998).
        { destruct (Z.lt_ge_cases (days_until w exp) (-9998)) as [|Hge]; [lia|].
          exfalso. assert (-9998 * day_us <= days_until w exp * day_us)
            by (apply Z.mul_le_mono_pos_r; lia). lia. }
        lia.
    + intros Hd; rewrite Hd, classify_neg by lia; reflexivity.
Qed.

(** Number of webhook POSTs in a trace. *)
Definition slack_calls (tr : list event) : nat :=
  List.length (filter (fun ev => match ev with SlackPost _ _ => true | _ => false end) tr).

(** C7: with a webhook configured (non-empty [SLACK_WEBHOOK_URL], no
    [--no-slack]), a successful check with status OK makes no POST, and
    one with status WARNING, ERROR or EXPIRED makes exactly one. *)
Theorem notification_gating : forall w e thr url exp,
  truthy url = true ->
  fetch w (host e) (dict_get (port e) 443) = inr exp ->
  let st := classify (days_until w exp) thr in
  let tr := snd (check_site w e thr (effective_webhook (Some url) false) []) in
  (st = OK -> slack_calls tr = 0%nat) /\
  (st <> OK -> slack_calls tr = 1%nat).
Proof.
  intros w e thr url exp Ht Hf st tr.
  unfold tr, st, check_site, effective_webhook, get_certificate_notAfter, try_except,
    bind, ret, raise, print, eprint, emit, send_slack.
  rewrite Hf; simpl. rewrite Ht; simpl.
  destruct (classify (days_until w exp) thr); simpl;
    split; intros H; try congruence;
    first [reflexivity | destruct (slack w url _); reflexivity].
Qed.

Lemma notification_gating_witness :
  truthy "https://hooks.example/x" = true /\
  fetch (world_at (5 * day_us)) "example.org" 443 = inr (20742 * day_us + 5 * day_us) /\
  slack_calls (snd (check_site (world_at (5 * day_us)) host_a thr_default
                   (effective_webhook (Some "https://hooks.example/x"%string) false) [])) = 1%nat.
Proof.
  split; [reflexivity|]. split; [reflexivity|].
  apply (notification_gating (world_at (5 * day_us)) host_a thr_default
           "https://hooks.example/x" (20742 * day_us + 5 * day_us) eq_refl eq_refl).
  vm_compute; discriminate.
Defined.

(** C8: two runs whose worlds differ only in the outcome of the webhook
    POSTs give the same [check_site] result for every site and the same
    exit code for every completion order. *)
Theorem notify_outcome_irrelevant : forall w1 w2 thr wh,
  now w1 = now w2 ->
  fetch w1 = fetch w2 ->
  (forall e tr1 tr2, fst (check_site w1 e thr wh tr1) = fst (check_site w2 e thr wh tr2)) /\
  (forall order, main_exit w1 thr wh order = main_exit w2 thr wh order).
Proof.
  intros w1 w2 thr wh Hn Hf.
  assert (Hs : forall e, site_result w1 e thr = site_result w2 e thr).
  { intros e; unfold site_result, days_until; rewrite Hf, Hn; reflexivity. }
  split.
  - intros e tr1 tr2; rewrite !check_site_value, Hs; reflexivity.
  - intros order; unfold main_exit; rewrite !collect_value.
    rewrite (map_ext (fun e => site_result w1 e thr) (fun e => site_result w2 e thr) Hs).
    reflexivity.
Qed.

(** A world like [world_at] whose webhook rejects every POST. *)
Definition world_at_slack_down (k : Z) : world :=
  mk_world (20742 * day_us) (fun _ _ => inr (20742 * day_us + k))
           (fun _ _ => Some "HTTP Error 500"%string).

Lemma notify_outcome_irrelevant_witness :
  now (world_at (5 * day_us)) = now (world_at_slack_down (5 * day_us)) /\
  fetch (world_at (5 * day_us)) = fetch (world_at_slack_down (5 * day_us)) /\
  main_exit (world_at (5 * day_us)) thr_default (Some "https://hooks.example/x"%string)
    [host_a; host_a]
  = main_exit (world_at_slack_down (5 * day_us)) thr_default
      (Some "https://hooks.example/x"%string) [host_a; host_a].
Proof.
  split; [reflexivity|]. split; [reflexivity|].
  apply (notify_outcome_irrelevant (world_at (5 * day_us)) (world_at_slack_down (5 * day_us))
           thr_default (Some "https://hooks.example/x"%string) eq_refl eq_refl).
Defined.

(** C9: for any worker bound [K >= 1] the pool drains, and whenever it
    has drained, the results collected in completion order are exactly
    one per submitted site: as many as the sites, and a permutation of
    the per-site results. *)
Theorem pool_collects_all : forall K w thr wh sites,
  ((1 <= K)%nat -> exists p, pool_steps K (pool_init sites) p /\ pool_done p) /\
  (forall p, pool_steps K (pool_init sites) p -> pool_done p ->
     exists results,
       collect w thr wh (completed p) [] = inr results /\
       List.length results = List.length sites /\
       Permutation results (map (fun e => site_result w e thr) sites)).
Proof.
  intros K w thr wh sites; split.
  - intros HK. exists (mk_pool [] [] sites). split.
    + apply (pool_drain K sites [] HK).
    + split; reflexivity.
  - intros p Hs [Hp Hr].
    pose proof (pool_steps_perm K _ _ Hs) as Hperm.
    rewrite Hp, Hr in Hperm; simpl in Hperm; rewrite app_nil_r in Hperm.
    exists (map (fun e => site_result w e thr) (completed p)).
    split; [rewrite collect_value; reflexivity|].
    split.
    + rewrite length_map. apply Permutation_length; exact Hperm.
    + apply Permutation_map; exact Hperm.
Qed.

(** C10: after a successful retrieval the status is EXPIRED exactly when
    the expiry instant is before now; an unexpired certificate has
    [days_remaining >= 0] and an expired one [days_remaining <= -1]. *)
Theorem expired_iff_past : forall w e thr wh tr exp,
  fetch w (host e) (dict_get (port e) 443) = inr exp ->
  (fst (check_site w e thr wh tr)
     = inr (dict_get (name e) (host e), EXPIRED, days_until w exp) <-> exp < now w) /\
  (now w <= exp -> 0 <= days_until w exp) /\
  (exp < now w -> days_until w exp <= -1).
Proof.
  intros w e thr wh tr exp Hf.
  assert (Hd : 0 < day_us) by (unfold day_us; lia).
  assert (Hneg : exp < now w -> days_until w exp <= -1)
    by (intros H; pose proof (proj2 (proj2 (days_until_floor w exp))); lia).
  assert (Hpos : now w <= exp -> 0 <= days_until w exp)
    by (intros H; unfold days_until; apply Z.div_pos; lia).
  rewrite check_site_value; unfold site_result; rewrite Hf.
  split; [|split; assumption].
  split.
  - intros H; injection H as Hs.
    destruct (Z_lt_le_dec exp (now w)) as [Hlt|Hge]; [exact Hlt|].
    exfalso. specialize (Hpos Hge). revert Hs; unfold classify.
    destruct (Z.ltb_spec (days_until w exp) 0); [lia|].
    destruct (_ <=? _); [discriminate|]. destruct (_ <=? _); discriminate.
  - intros H. rewrite classify_neg by (apply Hneg in H; lia). reflexivity.
Qed.

Lemma expired_iff_past_witness :
  fetch (world_at (-1)) "example.org" 443 = inr (20742 * day_us - 1) /\
  fst (check_site (world_at (-1)) host_a thr_default None [])
    = inr ("example.org"%string, EXPIRED, days_until (world_at (-1)) (20742 * day_us - 1)).
Proof.
  split; [reflexivity|].
  apply (proj2 (proj1 (expired_iff_past (world_at (-1)) host_a thr_default None []
                          (20742 * day_us - 1) eq_refl))).
  vm_compute; reflexivity.
Defined.

(** ** The rest of [main] *)

(** The parsed YAML configuration: the [sites] key (a list of site
    entries) and the [thresholds] key (a mapping), each possibly absent. *)
Record config : Type := mk_config {
  cfg_sites : option (list entry);
  cfg_thresholds : option thresholds
}.

(** Command-line arguments: [-c/--config] (default ['websites.yml']) and
    [--no-slack]. *)
Record args : Type := mk_args {
  arg_config : option string;
  arg_no_slack : bool
}.

(** The file system as [main] sees it: [None] when [os.path.exists] is
    false; otherwise what [yaml.safe_load] returns ([None] for an empty
    document). *)
Definition filesystem : Type := string -> option (option config).

Inductive main_event : Type :=
| ConfigNotFound (path : string)   (* "Config file not found: {cfg_path}" on stderr *)
| SiteOutput (e : entry) (evs : list event).

(** The output of [main]: its events, and either an uncaught exception
    or the code passed to [sys.exit].  [sched] is the completion order
    the executor yields for the submitted sites. *)
Definition main_run (fs : filesystem) (environ_webhook : option string) (a : args)
    (w : world) (sched : list entry -> list entry)
    : list main_event * (string + Z) :=
  let cfg_path := dict_get (arg_config a) "websites.yml"%string in
  match fs cfg_path with
  | None => ([ConfigNotFound cfg_path], inr 2)
  | Some None => ([], inl "AttributeError: 'NoneType' object has no attribute 'get'"%string)
  | Some (Some cfg) =>
      let sites := dict_get (cfg_sites cfg) [] in
      let thr := dict_get (cfg_thresholds cfg) (mk_thresholds None None) in
      let slack_webhook := effective_webhook environ_webhook (arg_no_slack a) in
      let order := sched sites in
      (map (fun e => SiteOutput e (snd (check_site w e thr slack_webhook []))) order,
       main_exit w thr slack_webhook order)
  end.

(** The events one check appends to the output. *)
Definition site_events (w : world) (e : entry) (thr : thresholds)
    (slack_webhook : option string) : list event :=
  snd (check_site w e thr slack_webhook []).

Definition is_stdout (ev : event) : bool :=
  match ev with Stdout _ => true | _ => false end.

Definition is_post (ev : event) : bool :=
  match ev with SlackPost _ _ => true | _ => false end.

(** Unfolds a [check_site] run and splits on every branch it takes. *)
Ltac run_check_site :=
  unfold site_events, check_site, get_certificate_notAfter, try_except, bind, ret,
    raise, print, eprint, emit, send_slack;
  repeat match goal with
    | |- context [fetch ?w ?h ?p] => destruct (fetch w h p)
    | |- context [match ?o with Some _ => _ | None => _ end] => destruct o
    | |- context [if ?b then _ else _] => destruct b
    end; simpl.


Lemma mem_perm : forall s l1 l2, Permutation l1 l2 -> mem s l1 = mem s l2.
Proof.
  intros s l1 l2 Hp; unfold mem; induction Hp; simpl; try congruence.
  destruct (status_eqb s x), (status_eqb s y); reflexivity.
Qed.

Lemma exit_code_perm : forall rs1 rs2, Permutation rs1 rs2 -> exit_code rs1 = exit_code rs2.
Proof.
  intros rs1 rs2 Hp; unfold exit_code, codes.
  assert (Hc : Permutation (map res_status rs1) (map res_status rs2))
    by (apply Permutation_map; exact Hp).
  rewrite !(mem_perm _ _ _ Hc); reflexivity.
Qed.

(** ** Further properties of the code *)










(** With [--no-slack] no check posts to the webhook, whatever
    [SLACK_WEBHOOK_URL] holds. *)
Theorem main_no_slack_never_posts : forall fs env a w sched,
  arg_no_slack a = true ->
  forall e evs, In (SiteOutput e evs) (fst (main_run fs env a w sched)) ->
  slack_calls evs = 0%nat.
Proof.
  intros fs env a w sched Hn e evs Hin.
  unfold main_run, effective_webhook in Hin; rewrite Hn in Hin.
  destruct (fs _) as [[cfg|]|]; simpl in Hin.
  - apply in_map_iff in Hin as [e' [Heq _]]. injection Heq as _ <-.
    unfold slack_calls. run_check_site; reflexivity.
  - contradiction.
  - destruct Hin as [Hin|Hin]; [discriminate | contradiction].
Qed.

Lemma main_no_slack_never_posts_witness :
  arg_no_slack (mk_args None true) = true /\
  In (SiteOutput host_a [Stdout (ExpiresLine "example.org"%string "example.org"%string 443
                                  (20742 * day_us + 5 * day_us) 5 ERROR)])
     (fst (main_run (fun _ => Some (Some (mk_config (Some [host_a]) None)))
                    (Some "https://hooks.example/x"%string) (mk_args None true)
                    (world_at (5 * day_us)) (fun l => l))) /\
  slack_calls [Stdout (ExpiresLine "example.org"%string "example.org"%string 443
                         (20742 * day_us + 5 * day_us) 5 ERROR)] = 0%nat.
Proof.
  split; [reflexivity|].
  assert (Hin : In (SiteOutput host_a [Stdout (ExpiresLine "example.org"%string "example.org"%string 443
                                  (20742 * day_us + 5 * day_us) 5 ERROR)])
     (fst (main_run (fun _ => Some (Some (mk_config (Some [host_a]) None)))
                    (Some "https://hooks.example/x"%string) (mk_args None true)
                    (world_at (5 * day_us)) (fun l => l)))) by (left; reflexivity).
  split; [exact Hin|].
  exact (main_no_slack_never_posts _ _ (mk_args None true) _ _ eq_refl _ _ Hin).
Defined.

(** The exit code of [main] does not depend on the order in which the
    checks complete. *)
Theorem main_exit_schedule_independent : forall fs env a w sched1 sched2,
  (forall l, Permutation (sched1 l) l) ->
  (forall l, Permutation (sched2 l) l) ->
  snd (main_run fs env a w sched1) = snd (main_run fs env a w sched2).
Proof.
  intros fs env a w sched1 sched2 H1 H2; unfold main_run.
  destruct (fs _) as [[cfg|]|]; simpl; try reflexivity.
  unfold main_exit; rewrite !collect_value; simpl.
  f_equal. apply exit_code_perm, Permutation_map.
  rewrite H1, H2; reflexivity.
Qed.

Lemma main_exit_schedule_independent_witness :
  (forall l : list entry, Permutation (rev l) l) /\
  (forall l : list entry, Permutation l l) /\
  snd (main_run (fun _ => Some (Some (mk_config (Some [host_a; mk_entry "b.org"%string None None]) None)))
                None (mk_args None false) (world_at (5 * day_us)) (@rev entry))
  = snd (main_run (fun _ => Some (Some (mk_config (Some [host_a; mk_entry "b.org"%string None None]) None)))
                None (mk_args None false) (world_at (5 * day_us)) (fun l => l)).
Proof.
  assert (Hr : forall l : list entry, Permutation (rev l) l)
    by (intros l; apply Permutation_sym, Permutation_rev).
  assert (Hi : forall l : list entry, Permutation l l) by (intros l; reflexivity).
  split; [exact Hr|]. split; [exact Hi|].
  apply main_exit_schedule_independent; [exact Hr | exact Hi].
Defined.

(** The exit code is the highest severity among the results (0 for no
    results). *)
Theorem exit_code_max_severity : forall rs,
  exit_code rs = Z.of_nat (list_max (map (fun r => severity (res_status r)) rs)).
Proof.
  induction rs as [|r rs IH]; [reflexivity|].
  unfold exit_code, codes, mem in *; cbn [map existsb].
  change (list_max (?x :: ?l)) with (Nat.max x (list_max l)).
  destruct (res_status r); cbn [severity status_eqb orb];
    destruct (existsb (status_eqb ERROR) _), (existsb (status_eqb EXPIRED) _),
             (existsb (status_eqb WARNING) _); cbn [orb] in *; lia.
Qed.

(** Exit codes compose: the code of two result sets together is the
    larger of their codes. *)
Theorem exit_code_app : forall rs1 rs2,
  exit_code (rs1 ++ rs2) = Z.max (exit_code rs1) (exit_code rs2).
Proof.
  intros rs1 rs2; rewrite !exit_code_max_severity, map_app, list_max_app; lia.
Qed.

(** A check prints exactly one line to stdout, the [Expires] line with
    its label, host, port, expiry, day count and status, when the
    retrieval succeeds, and nothing to stdout when it fails. *)
Theorem check_site_stdout : forall w e thr wh,
  filter is_stdout (site_events w e thr wh)
  = match fetch w (host e) (dict_get (port e) 443) with
    | inl _ => []
    | inr exp =>
        [Stdout (ExpiresLine (dict_get (name e) (host e)) (host e) (dict_get (port e) 443)
                   exp (days_until w exp) (classify (days_until w exp) thr))]
    end.
Proof. intros w e thr wh; run_check_site; reflexivity. Qed.

(** Every check posts to the webhook at most once, and never when the
    webhook is unset or the empty string. *)
Theorem check_site_at_most_one_post : forall w e thr wh,
  (slack_calls (site_events w e thr wh) <= 1)%nat /\
  (wh = None -> slack_calls (site_events w e thr wh) = 0%nat) /\
  (wh = Some EmptyString -> slack_calls (site_events w e thr wh) = 0%nat).
Proof.
  intros w e thr wh; unfold slack_calls.
  split; [|split; intros ->].
  - run_check_site; lia.
  - run_check_site; reflexivity.
  - unfold site_events, check_site, truthy; simpl; run_check_site; reflexivity.
Qed.

(** Proves membership in an explicit list. *)
Ltac in_list :=
  match goal with
  | |- _ = _ => reflexivity
  | |- _ \/ _ => first [left; in_list | right; in_list]
  end.

(** What a check posts to the webhook is a line it also printed: the
    [Expires] line on stdout, or the retrieval error line on stderr; it
    posts only to the configured, non-empty webhook. *)
Theorem check_site_post_is_printed : forall w e thr wh url text,
  In (SlackPost url text) (site_events w e thr wh) ->
  wh = Some url /\ truthy url = true /\
  (In (Stdout text) (site_events w e thr wh) \/ In (Stderr text) (site_events w e thr wh)).
Proof.
  intros w e thr wh url text.
  unfold site_events, check_site, get_certificate_notAfter, try_except, bind, ret,
    raise, print, eprint, emit, send_slack.
  destruct (fetch w _ _) as [err|exp]; destruct wh as [u|]; simpl;
    [destruct (truthy u) eqn:Ht | | destruct (truthy u && is_alert _) eqn:Ht |]; simpl;
    try (destruct (slack w u _)); simpl;
    intros H; repeat destruct H as [H|H]; try discriminate; try contradiction;
    injection H as <- <-;
    (split; [reflexivity | split; [|simpl; in_list]]);
    first [exact Ht | exact (proj1 (andb_prop _ _ Ht))].
Qed.

Lemma check_site_post_is_printed_witness :
  In (SlackPost "https://hooks.example/x"
        (ExpiresLine "example.org" "example.org" 443 (20742 * day_us + 5 * day_us) 5 ERROR))
     (site_events (world_at (5 * day_us)) host_a thr_default
                  (Some "https://hooks.example/x"%string)) /\
  In (Stdout (ExpiresLine "example.org" "example.org" 443 (20742 * day_us + 5 * day_us) 5 ERROR))
     (site_events (world_at (5 * day_us)) host_a thr_default
                  (Some "https://hooks.example/x"%string)).
Proof.
  assert (Hin : In (SlackPost "https://hooks.example/x"
        (ExpiresLine "example.org" "example.org" 443 (20742 * day_us + 5 * day_us) 5 ERROR))
     (site_events (world_at (5 * day_us)) host_a thr_default
                  (Some "https://hooks.example/x"%string))) by (right; left; reflexivity).
  split; [exact Hin|].
  destruct (check_site_post_is_printed _ _ _ _ _ _ Hin) as [_ [_ [H|H]]]; [exact H|].
  exfalso. simpl in H. repeat destruct H as [H|H]; try discriminate; contradiction.
Defined.

(** After a successful retrieval with an alerting status, a failed POST
    is reported on stderr ("Failed to send Slack alert") after the
    printed line and the attempt; the result is unchanged. *)
Theorem slack_failure_logged_on_success : forall w e thr url exp cause,
  let h := host e in
  let p := dict_get (port e) 443 in
  let label := dict_get (name e) h in
  let d := days_until w exp in
  let msg := ExpiresLine label h p exp d (classify d thr) in
  fetch w h p = inr exp ->
  truthy url = true ->
  is_alert (classify d thr) = true ->
  slack w url msg = Some cause ->
  check_site w e thr (Some url) []
    = (inr (label, classify d thr, d),
       [Stdout msg; SlackPost url msg; Stderr (SlackFailLine cause)]).
Proof.
  intros w e thr url exp cause h p label d msg Hf Ht Ha Hs.
  unfold check_site, get_certificate_notAfter, try_except, bind, ret, raise,
    print, eprint, emit, send_slack.
  fold h p label. rewrite Hf; simpl. fold d msg. rewrite Ht, Ha; simpl.
  rewrite Hs; reflexivity.
Qed.

Lemma slack_failure_logged_on_success_witness :
  check_site (world_at_slack_down (5 * day_us)) host_a thr_default
    (Some "https://hooks.example/x"%string) []
  = (inr ("example.org"%string, ERROR, 5),
     [Stdout (ExpiresLine "example.org" "example.org" 443 (20742 * day_us + 5 * day_us) 5 ERROR);
      SlackPost "https://hooks.example/x"
        (ExpiresLine "example.org" "example.org" 443 (20742 * day_us + 5 * day_us) 5 ERROR);
      Stderr (SlackFailLine "HTTP Error 500")]).
Proof.
  apply (slack_failure_logged_on_success (world_at_slack_down (5 * day_us)) host_a thr_default
           "https://hooks.example/x" (20742 * day_us + 5 * day_us) "HTTP Error 500");
    reflexivity.
Defined.

(** When the retrieval fails, the error line is printed and posted; a
    failed POST of it is swallowed without any further output. *)
Theorem slack_failure_silent_on_error : forall w e thr url err cause,
  let h := host e in
  let p := dict_get (port e) 443 in
  let label := dict_get (name e) h in
  fetch w h p = inl err ->
  truthy url = true ->
  slack w url (RetrieveErrLine label h p err) = Some cause ->
  check_site w e thr (Some url) []
    = (inr (label, ERROR, -9999),
       [Stderr (RetrieveErrLine label h p err); SlackPost url (RetrieveErrLine label h p err)]).
Proof.
  intros w e thr url err cause h p label Hf Ht Hs.
  unfold check_site, get_certificate_notAfter, try_except, bind, ret, raise,
    print, eprint, emit, send_slack.
  fold h p label. rewrite Hf; simpl. rewrite Ht; simpl. rewrite Hs; reflexivity.
Qed.

(** A world where no TLS connection can be made and the webhook fails. *)
Definition world_unreachable : world :=
  mk_world (20742 * day_us) (fun _ _ => inl "timed out"%string)
           (fun _ _ => Some "HTTP Error 500"%string).

Lemma slack_failure_silent_on_error_witness :
  check_site world_unreachable host_a thr_default (Some "https://hooks.example/x"%string) []
  = (inr ("example.org"%string, ERROR, -9999),
     [Stderr (RetrieveErrLine "example.org" "example.org" 443 "timed out");
      SlackPost "https://hooks.example/x"
        (RetrieveErrLine "example.org" "example.org" 443 "timed out")]).
Proof.
  apply (slack_failure_silent_on_error world_unreachable host_a thr_default
           "https://hooks.example/x" "timed out" "HTTP Error 500"); reflexivity.
Defined.


(** Checking [k] whole days earlier reports [k] more days remaining. *)
Theorem days_until_shift : forall w dt k,
  days_until w (dt + k * day_us) = days_until w dt + k.
Proof.
  intros w dt k; unfold days_until.
  replace (dt + k * day_us - now w) with (dt - now w + k * day_us) by lia.
  apply Z.div_add; unfold day_us; lia.
Qed.

Lemma classify_antitone : forall thr d1 d2,
  dict_get (error_days thr) 7 <= dict_get (warning_days thr) 30 ->
  d1 <= d2 ->
  (severity (classify d2 thr) <= severity (classify d1 thr))%nat.
Proof.
  intros thr d1 d2 Hew Hd; unfold classify.
  destruct (Z.ltb_spec d1 0), (Z.ltb_spec d2 0);
    destruct (Z.leb_spec d1 (dict_get (error_days thr) 7));
    destruct (Z.leb_spec d2 (dict_get (error_days thr) 7));
    destruct (Z.leb_spec d1 (dict_get (warning_days thr) 30));
    destruct (Z.leb_spec d2 (dict_get (warning_days thr) 30));
    simpl; lia.
Qed.

(** For consistent thresholds, checking the same site later never gives a
    less severe status. *)
Theorem check_site_severity_grows_over_time : forall w1 w2 e thr wh tr1 tr2 r1 r2,
  fetch w1 = fetch w2 ->
  now w1 <= now w2 ->
  dict_get (error_days thr) 7 <= dict_get (warning_days thr) 30 ->
  fst (check_site w1 e thr wh tr1) = inr r1 ->
  fst (check_site w2 e thr wh tr2) = inr r2 ->
  (severity (res_status r1) <= severity (res_status r2))%nat.
Proof.
  intros w1 w2 e thr wh tr1 tr2 r1 r2 Hf Hn Hew H1 H2.
  rewrite check_site_value in H1, H2.
  injection H1 as <-; injection H2 as <-.
  unfold site_result; rewrite Hf.
  destruct (fetch w2 _ _) as [err|exp]; simpl; [lia|].
  apply classify_antitone; [exact Hew|].
  unfold days_until. apply Z.div_le_mono; [unfold day_us; lia | lia].
Qed.

Lemma check_site_severity_grows_over_time_witness :
  (severity (res_status ("example.org"%string, WARNING, 10%Z)) <=
   severity (res_status ("example.org"%string, ERROR, 5%Z)))%nat.
Proof.
  apply (check_site_severity_grows_over_time
           (world_at (10 * day_us))
           (mk_world (20742 * day_us + 5 * day_us) (fetch (world_at (10 * day_us)))
                     (slack (world_at (10 * day_us))))
           host_a thr_default None [] []); try reflexivity.
  vm_compute; discriminate.
  vm_compute; discriminate.
Defined.
